(** * streamlit-llm-app: the persona registry, the memoized response
      function and the Streamlit script of [src/app.py]

    The program is one Python script that Streamlit re-executes from top to
    bottom on every interaction.  Three things outlive a single execution
    and are shared by all of them: the [st.cache_data] store of
    [get_llm_response], the remote completion service, and (for the
    statements below) a record of what was asked of the two.  They form the
    [World] that every operation threads through.

    Python [str] values are represented by their UTF-8 encoding, which is
    injective and maps the empty string to the empty string, the only two
    facts about strings the script relies on. *)

From stdpp Require Import gmap strings list.

Open Scope string_scope.
Open Scope list_scope.

(** ** Python values *)

(** Exceptions (instances of [Exception]) that can travel through the
    script: the [KeyError] of a failed dict subscript, and whatever the
    client library raises, of which the script only ever reads
    [type(e).__name__] and [str(e)]. *)
Inductive Exn : Type :=
| KeyError (key : string)
| LibraryError (type_name : string) (message : string).

(** The result of evaluating a Python expression that may raise. *)
Inductive Outcome (A : Type) : Type :=
| Return (a : A)
| Raise (e : Exn).
Arguments Return {A} a.
Arguments Raise {A} e.

(** [langchain_core.messages]: the two message classes the script builds. *)
Inductive BaseMessage : Type :=
| SystemMessage (content : string)
| HumanMessage (content : string).

Inductive Role : Type := system | user.

Definition role (m : BaseMessage) : Role :=
  match m with
  | SystemMessage _ => system
  | HumanMessage _ => user
  end.

Definition content (m : BaseMessage) : string :=
  match m with
  | SystemMessage c => c
  | HumanMessage c => c
  end.

(** Truth value of a [str] in a condition: [if user_input:]. *)
Definition truthy (s : string) : bool :=
  match s with
  | EmptyString => false
  | String _ _ => true
  end.

(** ** The persona registry (app.py, lines 25-29) *)

(** A dict literal; insertion order is kept because [list(d.keys())] feeds
    the radio widget. *)
Definition EXPERT_PROFILES : list (string * string) :=
  [ ("テック系ジャーナリスト",
     "あなたは最新のITトレンド、ガジェット、科学技術に非常に詳しいテック系ジャーナリストです。回答は最新の情報に基づいて、エキサイティングで簡潔な口調で提供してください。回答は必ず日本語で行ってください。");
    ("歴史学者",
     "あなたは古代から現代までの歴史、文化、年号に精通した厳格な歴史学者です。回答は客観的な事実に基づき、情報の出典（例：紀元前100年頃、〇〇史によると）を明確にしながら、正確で丁寧な口調で提供してください。回答は必ず日本語で行ってください。");
    ("ビジネスコンサルタント",
     "あなたは市場戦略、組織改革、効率化の専門知識を持つビジネスコンサルタントです。回答は構造化され（箇条書きなどを活用）、実用的で、ビジネス課題の解決に役立つ具体的なアクションプランを中心に提供してください。回答は必ず日本語で行ってください。") ].

(** [d.get(k)] on a dict given as its item list. *)
Fixpoint dict_get (d : list (string * string)) (k : string) : option string :=
  match d with
  | [] => None
  | (k', v) :: d' => if decide (k' = k) then Some v else dict_get d' k
  end.

(** [list(d.keys())]. *)
Definition keys (d : list (string * string)) : list string := map fst d.

(** [d[k]]: the subscript raises [KeyError(k)] on a missing key. *)
Definition getitem (d : list (string * string)) (k : string) : Outcome string :=
  match dict_get d k with
  | Some v => Return v
  | None => Raise (KeyError k)
  end.

(** ** The shared world *)

Record World : Type := mkWorld {
  (** the [st.cache_data] store of [get_llm_response], keyed by its two
      arguments *)
  cache : gmap (string * string) string;
  (** every message list submitted to the completion service, oldest first *)
  api_log : list (list BaseMessage);
  (** every call of the decorated [get_llm_response], oldest first *)
  invocations : list (string * string)
}.

Definition fresh_world : World :=
  {| cache := ∅; api_log := []; invocations := [] |}.

(** Computations that read and write the world and may raise. A raised
    exception keeps the effects that happened before it. *)
Definition M (A : Type) : Type := World → Outcome A * World.

Definition lift {A} (o : Outcome A) : M A := λ w, (o, w).

#[global] Instance M_ret : MRet M := λ A a w, (Return a, w).
#[global] Instance M_bind : MBind M := λ A B f m w,
  match m w with
  | (Return a, w') => f a w'
  | (Raise e, w') => (Raise e, w')
  end.

(** The constructed client [llm].  [invoke] is the remote service: its
    answer may depend on everything submitted so far and on the message
    list, and it may raise (network, authentication, quota, ...).  The
    value it returns stands for [result.content]. *)
Record ChatOpenAI : Type := {
  invoke : list (list BaseMessage) → list BaseMessage → Outcome string
}.

(** [llm.invoke(messages)]: one outbound call, recorded whether or not it
    succeeds. *)
Definition llm_invoke (llm : ChatOpenAI) (messages : list BaseMessage) : M string :=
  λ w, (invoke llm (api_log w) messages,
        {| cache := cache w;
           api_log := api_log w ++ [messages];
           invocations := invocations w |}).

(** ** The response function (app.py, lines 44-76) *)

(** The function under the decorator. *)
Definition get_llm_response_body (llm : ChatOpenAI)
    (user_question expert_profile_key : string) : M string :=
  system_message ← lift (getitem EXPERT_PROFILES expert_profile_key);
  let messages := [SystemMessage system_message; HumanMessage user_question] in
  result ← llm_invoke llm messages;
  mret result.

(** [@st.cache_data] with its default settings (no [ttl], no
    [max_entries]): the arguments are the key; a stored value is returned
    without running the function; otherwise the function runs and its
    return value is stored.  A raised exception is passed on and nothing is
    stored.  Entering the decorated function is what [invocations]
    records. *)
Definition cache_data (f : string → string → M string) : string → string → M string :=
  λ a b w,
    let w0 := {| cache := cache w;
                 api_log := api_log w;
                 invocations := invocations w ++ [(a, b)] |} in
    match cache w0 !! (a, b) with
    | Some v => (Return v, w0)
    | None =>
        match f a b w0 with
        | (Return v, w1) =>
            (Return v, {| cache := <[(a, b) := v]> (cache w1);
                          api_log := api_log w1;
                          invocations := invocations w1 |})
        | (Raise e, w1) => (Raise e, w1)
        end
    end.

Definition get_llm_response (llm : ChatOpenAI) : string → string → M string :=
  cache_data (get_llm_response_body llm).

(** The message list of lines 66-70, for a system message [p] and a
    question [q]. *)
Definition prompt (p q : string) : list BaseMessage :=
  [SystemMessage p; HumanMessage q].

(** Two calls in a row with the same arguments: both results and the
    world after the second. *)
Definition call_twice (llm : ChatOpenAI) (q k : string) (w : World)
    : Outcome string * Outcome string * World :=
  let '(r1, w1) := get_llm_response llm q k w in
  let '(r2, w2) := get_llm_response llm q k w1 in
  (r1, r2, w2).

(** Every stored answer belongs to a persona of the registry. *)
Definition cache_registered (w : World) : Prop :=
  ∀ q k, is_Some (cache w !! (q, k)) → k ∈ keys EXPERT_PROFILES.

(** [sub] occurs in [s]. *)
Definition contains (s sub : string) : Prop :=
  ∃ before after, s = before +:+ sub +:+ after.

(** ** The page (app.py, lines 19-20, 31-37 and 82-127) *)

(** What one execution of the script puts on the page, in call order.
    [st_set_page_config] is the page setting of line 19; the others are
    the [st.*] and [st.sidebar.*] calls of the same name. *)
Inductive Element : Type :=
| st_set_page_config (page_title layout : string)
| st_title (body : string)
| st_markdown (body : string)
| st_sidebar_header (body : string)
| st_sidebar_radio (label : string) (options : list string) (key : string)
| st_sidebar_info (body : string)
| st_text_area (label : string) (height : nat) (key : string)
| st_button (label : string)
| st_spinner (text : string)
| st_error (body : string)
| st_subheader (body : string)
| st_info (body : string)
| st_warning (body : string).

(** What the browser reports for the three widgets when an execution
    starts: the index of the chosen radio option (0 until the user picks
    one), the text of the text area, and whether this execution was caused
    by a click on the button. *)
Record Widgets : Type := {
  expert_radio : nat;
  input_area : string;
  clicked : bool
}.

(** The value [st.sidebar.radio] returns: the chosen one of its options.
    The browser only reports indices of listed options; any other index is
    read as the first option, the widget's default. *)
Definition radio_value (options : list string) (index : nat) : string :=
  nth index options (hd "" options).

(** Elements that take input from the user. *)
Definition is_input (el : Element) : bool :=
  match el with
  | st_sidebar_radio _ _ _ | st_text_area _ _ _ | st_button _ => true
  | _ => false
  end.

Definition is_warning (el : Element) : bool :=
  match el with
  | st_warning _ => true
  | _ => false
  end.

(** The two elements of lines 123-124 that show an answer. *)
Definition is_answer (el : Element) : bool :=
  match el with
  | st_subheader _ | st_info _ => true
  | _ => false
  end.

Definition overview : string :=
  "
### アプリケーションの概要
このWebアプリは、ユーザーが選択した**専門家（ペルソナ）**の視点に基づいて、質問に回答するLLM（大規模言語モデル）インターフェースです。質問の内容に合わせて専門家を切り替えることで、多角的な視点からの情報を得ることができます。

### 操作方法
1.  **左側のサイドバー**で、回答してほしい専門家（テック系ジャーナリスト、歴史学者、ビジネスコンサルタント）をラジオボタンで選択します。
2.  中央のテキストエリアに質問を入力します。
3.  「**回答を生成**」ボタンをクリックすると、選択した専門家のシステムメッセージがLLMに渡され、そのペルソナに基づいた回答が表示されます。
".

Section Script.

(** [repr] of a [str], which [str(e)] of a [KeyError] shows. *)
Variable repr : string → string.

(** [type(e).__name__] *)
Definition exn_type_name (e : Exn) : string :=
  match e with
  | KeyError _ => "KeyError"
  | LibraryError n _ => n
  end.

(** [str(e)], as the f-strings of lines 36 and 119 format [e]. *)
Definition exn_str (e : Exn) : string :=
  match e with
  | KeyError k => repr k
  | LibraryError _ m => m
  end.

(** Lines 110-127: what a click on the button does. *)
Definition button_handler (llm : ChatOpenAI) (user_input selected_expert : string)
    (w : World) : list Element * World :=
  if truthy user_input then
    let '(shown, llm_response_content, w') :=
      match get_llm_response llm user_input selected_expert w with
      | (Return r, w') => ([], r, w')
      | (Raise e, w') =>
          ([st_error ("LLMの実行中にエラーが発生しました: "
                      +:+ exn_type_name e +:+ " - " +:+ exn_str e)],
           "回答の取得に失敗しました。詳細なエラーは上記メッセージを確認してください。",
           w')
      end in
    ([st_spinner ("AI (" +:+ selected_expert +:+ ") が回答を考え中です...")]
       ++ shown
       ++ [st_subheader ("🤖 AIの回答 (" +:+ selected_expert +:+ ")");
           st_info llm_response_content],
     w')
  else
    ([st_warning "質問内容を入力してください。"], w).

(** One execution of the whole script.  [client] is what
    [ChatOpenAI(model="gpt-3.5-turbo", temperature=0)] evaluates to in
    this execution; when it raises, [st.stop()] ends the execution after
    the error box.  Lines 9-16 (output encoding on Windows, [load_dotenv])
    only prepare the process environment that [client] depends on. *)
Definition script (client : Outcome ChatOpenAI) (ws : Widgets)
    (w : World) : list Element * World :=
  let top :=
    [st_set_page_config "専門家LLMアプリ" "centered";
     st_title "👨‍💼 専門家パーソナリティ選択型LLMアプリ"] in
  match client with
  | Raise e =>
      (top ++ [st_error ("OpenAIモデルの初期化に失敗しました。APIキーを確認してください: "
                         +:+ exn_str e)],
       w)
  | Return llm =>
      let selected_expert := radio_value (keys EXPERT_PROFILES) (expert_radio ws) in
      let user_input := input_area ws in
      let page :=
        top ++
        [st_markdown overview;
         st_sidebar_header "専門家の選択";
         st_sidebar_radio "LLMに誰の振る舞いをさせますか？"
                          (keys EXPERT_PROFILES) "expert_radio";
         st_sidebar_info ("選択中の専門家: **" +:+ selected_expert +:+ "**");
         st_text_area "ここに質問を入力してください：" 150 "input_area";
         st_button "回答を生成"] in
      if clicked ws then
        let '(out, w') := button_handler llm user_input selected_expert w in
        (page ++ out, w')
      else (page, w)
  end.

(** ** Worlds the program can be in *)

(** The world changes only through calls of [get_llm_response] and
    through executions of the script. *)
Inductive step (w : World) : World → Prop :=
| step_call llm q k : step w (get_llm_response llm q k w).2
| step_script client ws : step w (script client ws w).2.

Definition reachable : World → Prop := rtc step fresh_world.

End Script.

(** ** Worlds the page alone can produce *)

Definition is_error (el : Element) : bool :=
  match el with
  | st_error _ => true
  | _ => false
  end.

(** The sentence every system message of lines 26-28 closes with (the
    instruction that line 24 announces). *)
Definition answer_in_japanese : string := "回答は必ず日本語で行ってください。".

(** The world as changed by executions of the script only, that is, by
    users of the page; [step] also allows direct calls of the function. *)
Inductive page_step (repr : string → string) (w : World) : World → Prop :=
| page_step_script client ws : page_step repr w (script repr client ws w).2.

Definition page_reachable (repr : string → string) : World → Prop :=
  rtc (page_step repr) fresh_world.

(** A click on the button with the persona at [index] chosen and [text]
    typed. *)
Definition submit_to (index : nat) (text : string) : Widgets :=
  {| expert_radio := index; input_area := text; clicked := true |}.

(** ** Sample clients and inputs for the examples *)

(** A service that answers every request with the same text. *)
Definition canned (answer : string) : ChatOpenAI :=
  {| invoke := λ _ _, Return answer |}.

(** A service that is down. *)
Definition unavailable : ChatOpenAI :=
  {| invoke := λ _ _, Raise (LibraryError "APIConnectionError" "Connection error.") |}.

(** A service whose first request fails and which answers afterwards. *)
Definition flaky : ChatOpenAI :=
  {| invoke := λ sent _,
       match sent with
       | [] => Raise (LibraryError "APIConnectionError" "Connection error.")
       | _ :: _ => Return "量子ビットで計算する計算機です。"
       end |}.

(** [repr] on strings that need no escaping. *)
Definition quoted (s : string) : string := "'" +:+ s +:+ "'".

Definition journalist : string := "テック系ジャーナリスト".
Definition historian : string := "歴史学者".
Definition quantum : string := "量子コンピュータとは？".

(** A click on the button with the first persona chosen and [text] typed. *)
Definition submit (text : string) : Widgets :=
  {| expert_radio := 0; input_area := text; clicked := true |}.

(** * Properties *)

(** ** The registry *)

Lemma dict_get_is_Some d k : is_Some (dict_get d k) ↔ k ∈ keys d.
Proof.
  induction d as [|[k' v] d IH]; simpl.
  - split; [intros [? [=]] | intros H; inversion H].
  - destruct (decide (k' = k)) as [->|Hne].
    + split; [intros _; left | eauto].
    + rewrite IH. split; [by right | ].
      intros H. inversion H; subst; [done | assumption].
Qed.

Lemma dict_get_None d k : dict_get d k = None ↔ k ∉ keys d.
Proof.
  rewrite <- dict_get_is_Some, <- eq_None_not_Some. done.
Qed.

Lemma getitem_Return d k p : getitem d k = Return p ↔ dict_get d k = Some p.
Proof.
  unfold getitem. destruct (dict_get d k); split; congruence.
Qed.

Lemma getitem_unknown d k : k ∉ keys d → getitem d k = Raise (KeyError k).
Proof.
  intros H%dict_get_None. unfold getitem. by rewrite H.
Qed.

(** ** The three ways a call of [get_llm_response] can go *)

Section Calls.

Variable llm : ChatOpenAI.

Lemma call_hit q k v w :
  cache w !! (q, k) = Some v →
  get_llm_response llm q k w =
    (Return v, {| cache := cache w; api_log := api_log w;
                  invocations := invocations w ++ [(q, k)] |}).
Proof.
  intros H. unfold get_llm_response, cache_data. simpl. by rewrite H.
Qed.

Lemma call_miss q k p w :
  cache w !! (q, k) = None →
  getitem EXPERT_PROFILES k = Return p →
  get_llm_response llm q k w =
    match invoke llm (api_log w) (prompt p q) with
    | Return v =>
        (Return v, {| cache := <[(q, k) := v]> (cache w);
                      api_log := api_log w ++ [prompt p q];
                      invocations := invocations w ++ [(q, k)] |})
    | Raise e =>
        (Raise e, {| cache := cache w;
                     api_log := api_log w ++ [prompt p q];
                     invocations := invocations w ++ [(q, k)] |})
    end.
Proof.
  intros Hc Hp. unfold get_llm_response, cache_data. simpl. rewrite Hc.
  unfold get_llm_response_body, mbind, M_bind, lift, llm_invoke, mret, M_ret.
  rewrite Hp. simpl. by destruct (invoke _ _ _).
Qed.

Lemma call_unknown q k w :
  cache w !! (q, k) = None →
  k ∉ keys EXPERT_PROFILES →
  get_llm_response llm q k w =
    (Raise (KeyError k), {| cache := cache w; api_log := api_log w;
                            invocations := invocations w ++ [(q, k)] |}).
Proof.
  intros Hc Hk. unfold get_llm_response, cache_data. simpl. rewrite Hc.
  unfold get_llm_response_body, mbind, M_bind, lift.
  by rewrite (getitem_unknown _ _ Hk).
Qed.

(** Every call falls in one of the three cases. *)
Lemma call_cases q k w :
  (∃ v, cache w !! (q, k) = Some v)
  ∨ (cache w !! (q, k) = None ∧ ∃ p, getitem EXPERT_PROFILES k = Return p)
  ∨ (cache w !! (q, k) = None ∧ k ∉ keys EXPERT_PROFILES).
Proof.
  destruct (cache w !! (q, k)) as [v|] eqn:Hc; [left; eauto | right].
  destruct (dict_get EXPERT_PROFILES k) as [p|] eqn:Hp.
  - left. split; [done | exists p; by apply getitem_Return].
  - right. split; [done | by apply dict_get_None].
Qed.

End Calls.

(** ** What a call changes *)

Section Effects.

Variable llm : ChatOpenAI.

(** A call that raises stores nothing. *)
Lemma call_raise_cache q k e w w1 :
  get_llm_response llm q k w = (Raise e, w1) → cache w1 = cache w.
Proof.
  intros H.
  destruct (call_cases q k w) as [[v Hc]|[[Hc [p Hp]]|[Hc Hk]]].
  - rewrite (call_hit llm _ _ _ _ Hc) in H. congruence.
  - rewrite (call_miss llm _ _ _ _ Hc Hp) in H.
    destruct (invoke _ _ _); inversion H; subst; done.
  - rewrite (call_unknown llm _ _ _ Hc Hk) in H. inversion H; subst; done.
Qed.

(** A call records itself, and sends at most one request. *)
Lemma call_invocations q k w :
  invocations (get_llm_response llm q k w).2 = invocations w ++ [(q, k)].
Proof.
  destruct (call_cases q k w) as [[v Hc]|[[Hc [p Hp]]|[Hc Hk]]].
  - by rewrite (call_hit llm _ _ _ _ Hc).
  - rewrite (call_miss llm _ _ _ _ Hc Hp). by destruct (invoke _ _ _).
  - by rewrite (call_unknown llm _ _ _ Hc Hk).
Qed.

Lemma call_api_log q k w :
  (length (api_log (get_llm_response llm q k w).2) ≤ length (api_log w) + 1)%nat.
Proof.
  destruct (call_cases q k w) as [[v Hc]|[[Hc [p Hp]]|[Hc Hk]]].
  - rewrite (call_hit llm _ _ _ _ Hc). simpl. lia.
  - rewrite (call_miss llm _ _ _ _ Hc Hp).
    destruct (invoke _ _ _); simpl; rewrite length_app; simpl; lia.
  - rewrite (call_unknown llm _ _ _ Hc Hk). simpl. lia.
Qed.

(** Entries under other keys are neither added, changed nor removed. *)
Lemma call_other_entry q k q' k' w :
  (q, k) ≠ (q', k') →
  cache (get_llm_response llm q k w).2 !! (q', k') = cache w !! (q', k').
Proof.
  intros Hne.
  destruct (call_cases q k w) as [[v Hc]|[[Hc [p Hp]]|[Hc Hk]]].
  - by rewrite (call_hit llm _ _ _ _ Hc).
  - rewrite (call_miss llm _ _ _ _ Hc Hp).
    destruct (invoke _ _ _); simpl; [by rewrite lookup_insert_ne | done].
  - by rewrite (call_unknown llm _ _ _ Hc Hk).
Qed.

Lemma call_cache_registered q k w :
  cache_registered w → cache_registered (get_llm_response llm q k w).2.
Proof.
  intros Hw q' k' Hin.
  destruct (decide ((q, k) = (q', k'))) as [[= <- <-]|Hne].
  - destruct (call_cases q k w) as [[v Hc]|[[Hc [p Hp]]|[Hc Hk]]].
    + apply (Hw q). by rewrite Hc.
    + apply dict_get_is_Some. exists p. by apply getitem_Return.
    + rewrite (call_unknown llm _ _ _ Hc Hk) in Hin. simpl in Hin.
      rewrite Hc in Hin. by destruct Hin.
  - rewrite call_other_entry in Hin by done. by apply (Hw q').
Qed.

End Effects.

(** ** What the page does with the world *)

Section Page.

Variable repr : string → string.

Lemma button_handler_world llm q k w :
  (button_handler repr llm q k w).2 =
    if truthy q then (get_llm_response llm q k w).2 else w.
Proof.
  unfold button_handler. destruct (truthy q); [|done].
  by destruct (get_llm_response llm q k w) as [[r|e] w'].
Qed.

Lemma script_world client ws w :
  (script repr client ws w).2 = w
  ∨ ∃ llm q k, (script repr client ws w).2 = (get_llm_response llm q k w).2.
Proof.
  unfold script. destruct client as [llm|e]; [|by left].
  destruct (clicked ws); [|by left].
  pose proof (button_handler_world llm (input_area ws)
    (radio_value (keys EXPERT_PROFILES) (expert_radio ws)) w) as Hw.
  destruct (button_handler _ _ _ _ _) as [out w']. simpl in *.
  destruct (truthy (input_area ws)); [right | left; done].
  eauto.
Qed.

Lemma step_cache_registered w w' :
  step repr w w' → cache_registered w → cache_registered w'.
Proof.
  intros [llm q k|client ws] Hw.
  - by apply call_cache_registered.
  - destruct (script_world client ws w) as [->|(llm & q & k & ->)];
      [done | by apply call_cache_registered].
Qed.

Lemma reachable_cache_registered w :
  reachable repr w → cache_registered w.
Proof.
  unfold reachable. revert w. apply rtc_ind_r.
  - intros q k [v Hv]. simpl in Hv. by rewrite lookup_empty in Hv.
  - intros w1 w2 _ Hstep IH. by eapply step_cache_registered.
Qed.

(** In a reachable world nothing is stored under an unknown persona. *)
Lemma reachable_unknown_miss q k w :
  reachable repr w → k ∉ keys EXPERT_PROFILES → cache w !! (q, k) = None.
Proof.
  intros Hw%reachable_cache_registered Hk.
  apply eq_None_not_Some. intros Hs. by apply Hk, (Hw q).
Qed.

End Page.

(** ** Memoization *)

(** C1 (as amended): for every question and persona key, if a call of
    [get_llm_response] returns a value, then the same call made again
    returns an equal value, and the two calls together send at most one
    request to the completion service. *)
Theorem repeated_call_is_memoized (llm : ChatOpenAI) (q k v : string) (w : World) :
  (get_llm_response llm q k w).1 = Return v →
  let '(r1, r2, w2) := call_twice llm q k w in
  r1 = Return v ∧ r2 = Return v ∧
  (length (api_log w2) ≤ length (api_log w) + 1)%nat.
Proof.
  intros H. unfold call_twice.
  destruct (call_cases q k w) as [[v' Hc]|[[Hc [p Hp]]|[Hc Hk]]].
  - rewrite (call_hit llm _ _ _ _ Hc) in H |- *. simpl in H.
    injection H as ->.
    rewrite (call_hit llm q k v) by done. simpl. split_and!; [done..|lia].
  - rewrite (call_miss llm _ _ _ _ Hc Hp) in H |- *.
    destruct (invoke llm (api_log w) (prompt p q)) as [v'|e]; [|done].
    simpl in H. injection H as ->.
    rewrite (call_hit llm q k v) by (simpl; apply lookup_insert_eq).
    simpl. split_and!; [done..|]. rewrite length_app. simpl. lia.
  - rewrite (call_unknown llm _ _ _ Hc Hk) in H. done.
Qed.

Lemma repeated_call_is_memoized_witness :
  (get_llm_response (canned "ok") quantum journalist fresh_world).1 = Return "ok" ∧
  let '(r1, r2, w2) := call_twice (canned "ok") quantum journalist fresh_world in
  r1 = Return "ok" ∧ r2 = Return "ok" ∧
  (length (api_log w2) ≤ length (api_log fresh_world) + 1)%nat.
Proof.
  split; [vm_compute; reflexivity|].
  apply (repeated_call_is_memoized (canned "ok") quantum journalist "ok" fresh_world).
  vm_compute; reflexivity.
Defined.

(** C1 (as stated) fails when the first call fails: with a service whose
    first request is refused, two identical calls for a registered persona
    send two requests, and the second call returns a text although the
    first returned none. *)
Lemma failed_call_is_repeated :
  journalist ∈ keys EXPERT_PROFILES ∧
  let '(r1, r2, w2) := call_twice flaky quantum journalist fresh_world in
  length (api_log w2) = (length (api_log fresh_world) + 2)%nat ∧
  ¬ (length (api_log w2) ≤ length (api_log fresh_world) + 1)%nat ∧
  r2 ≠ r1.
Proof.
  split; [apply dict_get_is_Some; vm_compute; eauto|].
  vm_compute. split_and!; [reflexivity | lia | discriminate].
Qed.

(** C2: on a cache miss for a registered persona, the call submits exactly
    one message list, made of a system message holding the registry's text
    for the persona followed by a user message holding the question, and
    its outcome is the service's outcome for that list, unchanged. *)
Theorem miss_submits_two_message_prompt (llm : ChatOpenAI) (q k p : string) (w : World) :
  getitem EXPERT_PROFILES k = Return p →
  cache w !! (q, k) = None →
  let '(r, w') := get_llm_response llm q k w in
  (∃ m1 m2, api_log w' = api_log w ++ [[m1; m2]] ∧
     role m1 = system ∧ content m1 = p ∧ role m2 = user ∧ content m2 = q) ∧
  r = invoke llm (api_log w) [SystemMessage p; HumanMessage q] ∧
  ∀ text, invoke llm (api_log w) [SystemMessage p; HumanMessage q] = Return text →
          r = Return text ∧ cache w' !! (q, k) = Some text.
Proof.
  intros Hp Hc. rewrite (call_miss llm _ _ _ _ Hc Hp). unfold prompt.
  destruct (invoke _ _ _) as [v|e].
  - split_and!; [|done|].
    + exists (SystemMessage p), (HumanMessage q). done.
    + intros text [= ->]. simpl. by rewrite lookup_insert_eq.
  - split_and!; [|done|done].
    exists (SystemMessage p), (HumanMessage q). done.
Qed.

Lemma miss_submits_two_message_prompt_witness :
  ∃ p, getitem EXPERT_PROFILES journalist = Return p ∧
  cache fresh_world !! (quantum, journalist) = None ∧
  let '(r, w') := get_llm_response (canned "ok") quantum journalist fresh_world in
  (∃ m1 m2, api_log w' = api_log fresh_world ++ [[m1; m2]] ∧
     role m1 = system ∧ content m1 = p ∧ role m2 = user ∧ content m2 = quantum) ∧
  r = invoke (canned "ok") (api_log fresh_world) [SystemMessage p; HumanMessage quantum] ∧
  ∀ text, invoke (canned "ok") (api_log fresh_world)
            [SystemMessage p; HumanMessage quantum] = Return text →
          r = Return text ∧ cache w' !! (quantum, journalist) = Some text.
Proof.
  eexists. split; [vm_compute; reflexivity|]. split; [reflexivity|].
  apply (miss_submits_two_message_prompt (canned "ok") quantum journalist _ fresh_world);
    [vm_compute; reflexivity | reflexivity].
Defined.

(** ** Unknown personas *)

(** C3: for every key that is not a persona of the registry, the registry
    lookup raises (a [KeyError] carrying the key) instead of yielding a
    prompt text, and so does [get_llm_response] for any question, in every
    world the program can reach. *)
Theorem unknown_persona_raises (repr : string → string) (llm : ChatOpenAI)
    (q k : string) (w : World) :
  k ∉ keys EXPERT_PROFILES →
  reachable repr w →
  getitem EXPERT_PROFILES k = Raise (KeyError k) ∧
  (∀ p, getitem EXPERT_PROFILES k ≠ Return p) ∧
  (get_llm_response llm q k w).1 = Raise (KeyError k).
Proof.
  intros Hk Hw. pose proof (getitem_unknown _ _ Hk) as Hg.
  split_and!; [done | congruence |].
  by rewrite (call_unknown llm q k w (reachable_unknown_miss repr q k w Hw Hk) Hk).
Qed.

Lemma unknown_persona_raises_witness :
("料理研究家" ∉ keys EXPERT_PROFILES) ∧
  reachable quoted (script quoted (Return (canned "ok")) (submit quantum) fresh_world).2 ∧
  getitem EXPERT_PROFILES "料理研究家" = Raise (KeyError "料理研究家") ∧
  (∀ p, getitem EXPERT_PROFILES "料理研究家" ≠ Return p) ∧
  (get_llm_response (canned "ok") quantum "料理研究家"
     (script quoted (Return (canned "ok")) (submit quantum) fresh_world).2).1
    = Raise (KeyError "料理研究家").
Proof.
  assert (Hk : "料理研究家" ∉ keys EXPERT_PROFILES)
    by (apply dict_get_None; vm_compute; reflexivity).
  assert (Hw : reachable quoted
                 (script quoted (Return (canned "ok")) (submit quantum) fresh_world).2)
    by (apply rtc_once, step_script).
  split; [exact Hk|]. split; [exact Hw|].
  exact (unknown_persona_raises quoted (canned "ok") quantum "料理研究家" _ Hk Hw).
Defined.

(** C10: for every question and every key outside the registry, the
    function under the decorator raises at the registry lookup, before any
    message is built or sent, and the decorated call, in every reachable
    world, raises the same error, sends nothing and leaves the cache as it
    was. *)
Theorem unknown_persona_changes_nothing (repr : string → string) (llm : ChatOpenAI)
    (q k : string) (w : World) :
  k ∉ keys EXPERT_PROFILES →
  reachable repr w →
  get_llm_response_body llm q k w = (Raise (KeyError k), w) ∧
  let '(r, w') := get_llm_response llm q k w in
  r = Raise (KeyError k) ∧ api_log w' = api_log w ∧ cache w' = cache w.
Proof.
  intros Hk Hw. split.
  - unfold get_llm_response_body, mbind, M_bind, lift.
    by rewrite (getitem_unknown _ _ Hk).
  - by rewrite (call_unknown llm q k w (reachable_unknown_miss repr q k w Hw Hk) Hk).
Qed.

Lemma unknown_persona_changes_nothing_witness :
("" ∉ keys EXPERT_PROFILES) ∧
  reachable quoted (get_llm_response flaky quantum historian fresh_world).2 ∧
  get_llm_response_body flaky quantum ""
      (get_llm_response flaky quantum historian fresh_world).2
    = (Raise (KeyError ""), (get_llm_response flaky quantum historian fresh_world).2) ∧
  let '(r, w') := get_llm_response flaky quantum ""
                    (get_llm_response flaky quantum historian fresh_world).2 in
  r = Raise (KeyError "") ∧
  api_log w' = api_log (get_llm_response flaky quantum historian fresh_world).2 ∧
  cache w' = cache (get_llm_response flaky quantum historian fresh_world).2.
Proof.
  assert (Hk : "" ∉ keys EXPERT_PROFILES)
    by (apply dict_get_None; vm_compute; reflexivity).
  assert (Hw : reachable quoted (get_llm_response flaky quantum historian fresh_world).2)
    by (apply rtc_once, step_call).
  split; [exact Hk|]. split; [exact Hw|].
  exact (unknown_persona_changes_nothing quoted flaky quantum "" _ Hk Hw).
Defined.

(** ** The cache key *)

(** C4: the cache is keyed by the pair of question and persona key.  For
    every question and two different keys, a call for the first key leaves
    whatever is or is not stored for the second key as it was; and when
    nothing is stored for the second key, a following call for it (the
    second key being registered) is answered by the service from that
    persona's own prompt, not by what was stored for the first key. *)
Theorem persona_is_part_of_cache_key (llm : ChatOpenAI) (q k1 k2 : string) (w : World) :
  k1 ≠ k2 →
  let w1 := (get_llm_response llm q k1 w).2 in
  cache w1 !! (q, k2) = cache w !! (q, k2) ∧
  ∀ p2, getitem EXPERT_PROFILES k2 = Return p2 →
        cache w !! (q, k2) = None →
        let '(r2, w2) := get_llm_response llm q k2 w1 in
        r2 = invoke llm (api_log w1) [SystemMessage p2; HumanMessage q] ∧
        api_log w2 = api_log w1 ++ [[SystemMessage p2; HumanMessage q]] ∧
        cache w2 !! (q, k1) = cache w1 !! (q, k1).
Proof.
  intros Hne w1.
  assert (Hk : cache w1 !! (q, k2) = cache w !! (q, k2))
    by (apply call_other_entry; congruence).
  split; [done|]. intros p2 Hp Hc.
  pose proof (call_other_entry llm q k2 q k1 w1) as Hback.
  rewrite (call_miss llm q k2 p2 w1) in Hback |- * by congruence.
  unfold prompt in *.
  destruct (invoke _ _ _); (split_and!; [done | done | apply Hback; congruence]).
Qed.

Lemma persona_is_part_of_cache_key_witness :
  journalist ≠ historian ∧
  let w1 := (get_llm_response (canned "ok") quantum journalist fresh_world).2 in
  cache w1 !! (quantum, historian) = cache fresh_world !! (quantum, historian) ∧
  ∀ p2, getitem EXPERT_PROFILES historian = Return p2 →
        cache fresh_world !! (quantum, historian) = None →
        let '(r2, w2) := get_llm_response (canned "ok") quantum historian w1 in
        r2 = invoke (canned "ok") (api_log w1) [SystemMessage p2; HumanMessage quantum] ∧
        api_log w2 = api_log w1 ++ [[SystemMessage p2; HumanMessage quantum]] ∧
        cache w2 !! (quantum, journalist) = cache w1 !! (quantum, journalist).
Proof.
  split; [vm_compute; discriminate|].
  apply (persona_is_part_of_cache_key (canned "ok") quantum journalist historian fresh_world).
  vm_compute; discriminate.
Defined.

(** ** Failures of the service *)

(** C5: for every question and persona, if the request sent by a call of
    [get_llm_response] fails, the call raises that failure and the cache is
    the same as before the call; the same call made again sends the request
    again and its outcome is the service's new outcome. *)
Theorem failure_is_not_cached (llm : ChatOpenAI) (q k p : string) (e : Exn) (w : World) :
  getitem EXPERT_PROFILES k = Return p →
  cache w !! (q, k) = None →
  invoke llm (api_log w) [SystemMessage p; HumanMessage q] = Raise e →
  let '(r1, w1) := get_llm_response llm q k w in
  r1 = Raise e ∧ cache w1 = cache w ∧
  let '(r2, w2) := get_llm_response llm q k w1 in
  api_log w2 = api_log w ++ [[SystemMessage p; HumanMessage q];
                             [SystemMessage p; HumanMessage q]] ∧
  r2 = invoke llm (api_log w1) [SystemMessage p; HumanMessage q].
Proof.
  intros Hp Hc He. rewrite (call_miss llm _ _ _ _ Hc Hp). unfold prompt.
  rewrite He. split_and!; [done..|].
  erewrite call_miss; [|exact Hc|exact Hp]. unfold prompt. simpl.
  destruct (invoke llm (api_log w ++ _) _); simpl; by rewrite <- app_assoc.
Qed.

Lemma failure_is_not_cached_witness :
  ∃ p, getitem EXPERT_PROFILES journalist = Return p ∧
  cache fresh_world !! (quantum, journalist) = None ∧
  invoke flaky (api_log fresh_world) [SystemMessage p; HumanMessage quantum]
    = Raise (LibraryError "APIConnectionError" "Connection error.") ∧
  let '(r1, w1) := get_llm_response flaky quantum journalist fresh_world in
  r1 = Raise (LibraryError "APIConnectionError" "Connection error.") ∧
  cache w1 = cache fresh_world ∧
  let '(r2, w2) := get_llm_response flaky quantum journalist w1 in
  api_log w2 = api_log fresh_world ++ [[SystemMessage p; HumanMessage quantum];
                                       [SystemMessage p; HumanMessage quantum]] ∧
  r2 = invoke flaky (api_log w1) [SystemMessage p; HumanMessage quantum].
Proof.
  eexists. split; [vm_compute; reflexivity|]. split; [reflexivity|].
  split; [reflexivity|].
  apply (failure_is_not_cached flaky quantum journalist _
           (LibraryError "APIConnectionError" "Connection error.") fresh_world);
    [vm_compute; reflexivity | reflexivity | reflexivity].
Defined.

(** ** Text of the messages *)

Lemma append_nil_r (s : string) : s +:+ "" = s.
Proof. induction s as [|a s IH]; [done | by rewrite <- IH at 2]. Qed.

Lemma append_assoc (s1 s2 s3 : string) : (s1 +:+ s2) +:+ s3 = s1 +:+ s2 +:+ s3.
Proof.
  induction s1 as [|a s1 IH]; [done|].
  change (String a ((s1 +:+ s2) +:+ s3) = String a (s1 +:+ s2 +:+ s3)).
  by rewrite IH.
Qed.

Lemma contains_middle (a s b : string) : contains (a +:+ s +:+ b) s.
Proof. by exists a, b. Qed.

Lemma contains_end (a s : string) : contains (a +:+ s) s.
Proof. exists a, "". by rewrite append_nil_r. Qed.

Lemma contains_append_l (a s sub : string) : contains s sub → contains (a +:+ s) sub.
Proof.
  intros (x & y & ->). exists (a +:+ x), y. by rewrite append_assoc.
Qed.

Lemma truthy_nonempty (s : string) : truthy s = true ↔ s ≠ "".
Proof. destruct s; simpl; split; congruence. Qed.

(** ** The button *)

Section Button.

Variable repr : string → string.

(** A call that returns is shown as it is. *)
Lemma button_handler_return llm q k r w w1 :
  q ≠ "" →
  get_llm_response llm q k w = (Return r, w1) →
  button_handler repr llm q k w =
    ([st_spinner ("AI (" +:+ k +:+ ") が回答を考え中です...");
      st_subheader ("🤖 AIの回答 (" +:+ k +:+ ")");
      st_info r], w1).
Proof.
  intros Hq%truthy_nonempty H. unfold button_handler. by rewrite Hq, H.
Qed.

Lemma button_handler_raise llm q k e w w1 :
  q ≠ "" →
  get_llm_response llm q k w = (Raise e, w1) →
  button_handler repr llm q k w =
    ([st_spinner ("AI (" +:+ k +:+ ") が回答を考え中です...");
      st_error ("LLMの実行中にエラーが発生しました: "
                +:+ exn_type_name e +:+ " - " +:+ exn_str repr e);
      st_subheader ("🤖 AIの回答 (" +:+ k +:+ ")");
      st_info "回答の取得に失敗しました。詳細なエラーは上記メッセージを確認してください。"],
     w1).
Proof.
  intros Hq%truthy_nonempty H. unfold button_handler. by rewrite Hq, H.
Qed.

End Button.

(** C6: when the button is clicked while the question is the empty string,
    [get_llm_response] is not called: the world after the execution is the
    world before it (no call recorded, nothing sent, cache untouched); the
    page ends with the warning that asks for a question and shows no
    answer. *)
Theorem empty_question_displays_warning (repr : string → string) (llm : ChatOpenAI)
    (ws : Widgets) (w : World) :
  clicked ws = true →
  input_area ws = "" →
  let '(out, w') := script repr (Return llm) ws w in
  w' = w ∧
  invocations w' = invocations w ∧ api_log w' = api_log w ∧ cache w' = cache w ∧
  last out = Some (st_warning "質問内容を入力してください。") ∧
  Forall (λ el, is_answer el = false) out.
Proof.
  intros Hc Hq. unfold script, button_handler. rewrite Hc, Hq. simpl.
  split_and!; [done..|]. repeat constructor.
Qed.

Lemma empty_question_displays_warning_witness :
  clicked (submit "") = true ∧
  input_area (submit "") = "" ∧
  let '(out, w') := script quoted (Return unavailable) (submit "") fresh_world in
  w' = fresh_world ∧
  invocations w' = invocations fresh_world ∧ api_log w' = api_log fresh_world ∧
  cache w' = cache fresh_world ∧
  last out = Some (st_warning "質問内容を入力してください。") ∧
  Forall (λ el, is_answer el = false) out.
Proof.
  split; [reflexivity|]. split; [reflexivity|].
  apply (empty_question_displays_warning quoted unavailable (submit "") fresh_world);
    reflexivity.
Defined.

(** C9: a click is refused only for the empty string.  The page carries a
    warning exactly when the question is empty; every other question, a
    blank one such as a single space included, is passed unchanged to
    [get_llm_response] together with the chosen persona, in one call. *)
Theorem nonempty_question_is_forwarded (repr : string → string) (llm : ChatOpenAI)
    (ws : Widgets) (w : World) :
  clicked ws = true →
  let k := radio_value (keys EXPERT_PROFILES) (expert_radio ws) in
  let '(out, w') := script repr (Return llm) ws w in
  (Exists (λ el, is_warning el = true) out ↔ input_area ws = "") ∧
  (input_area ws ≠ "" →
     w' = (get_llm_response llm (input_area ws) k w).2 ∧
     invocations w' = invocations w ++ [(input_area ws, k)] ∧
     Forall (λ el, is_warning el = false) out).
Proof.
  intros Hc k. unfold script. rewrite Hc. fold k.
  pose proof (call_invocations llm (input_area ws) k w) as Hinv.
  destruct (decide (input_area ws = "")) as [Hq|Hq].
  - unfold button_handler. rewrite Hq. simpl. split; [|done].
    split; [done|]. intros _.
    repeat first [ by apply Exists_cons_hd | apply Exists_cons_tl ].
  - destruct (get_llm_response llm (input_area ws) k w) as [[r|e] w1] eqn:Hcall;
      [ rewrite (button_handler_return repr llm _ _ r w w1 Hq Hcall)
      | rewrite (button_handler_raise repr llm _ _ e w w1 Hq Hcall) ];
      simpl in *;
      match goal with
      | |- (Exists _ ?out ↔ _) ∧ _ =>
          assert (Hno : Forall (λ el, is_warning el = false) out)
            by repeat constructor
      end;
      (split; [|done]);
      (split; [|done]);
      intros (el & Hel & Hwarn)%Exists_exists;
      rewrite Forall_forall in Hno; specialize (Hno el Hel); congruence.
Qed.

Lemma nonempty_question_is_forwarded_witness :
  clicked (submit " ") = true ∧
  input_area (submit " ") ≠ "" ∧
  let k := radio_value (keys EXPERT_PROFILES) (expert_radio (submit " ")) in
  let '(out, w') := script quoted (Return (canned "ok")) (submit " ") fresh_world in
  (Exists (λ el, is_warning el = true) out ↔ input_area (submit " ") = "") ∧
  (input_area (submit " ") ≠ "" →
     w' = (get_llm_response (canned "ok") (input_area (submit " ")) k fresh_world).2 ∧
     invocations w' = invocations fresh_world ++ [(input_area (submit " "), k)] ∧
     Forall (λ el, is_warning el = false) out).
Proof.
  split; [reflexivity|]. split; [discriminate|].
  apply (nonempty_question_is_forwarded quoted (canned "ok") (submit " ") fresh_world).
  reflexivity.
Defined.

(** C7: for every exception raised by [get_llm_response] on a click with a
    non-empty question, the handler catches it; it shows an error box
    whose text contains the exception's type name and its message, and
    the fixed text saying that no answer could be obtained in place of the
    answer.  [get_llm_response] was called once and at most one request was
    sent (no retry), the cache is as before the click (nothing is served
    from it), and a later click whose call returns is served as usual. *)
Theorem handler_reports_failure (repr : string → string) (llm : ChatOpenAI)
    (q k : string) (e : Exn) (w w1 : World) :
  q ≠ "" →
  get_llm_response llm q k w = (Raise e, w1) →
  (∃ wait message heading,
     button_handler repr llm q k w =
       ([st_spinner wait; st_error message; st_subheader heading;
         st_info "回答の取得に失敗しました。詳細なエラーは上記メッセージを確認してください。"],
        w1) ∧
     contains message (exn_type_name e) ∧
     contains message (exn_str repr e)) ∧
  invocations w1 = invocations w ++ [(q, k)] ∧
  (length (api_log w1) ≤ length (api_log w) + 1)%nat ∧
  cache w1 = cache w ∧
  (∀ llm' q' k' r w2,
     q' ≠ "" →
     get_llm_response llm' q' k' w1 = (Return r, w2) →
     ∃ wait heading,
       button_handler repr llm' q' k' w1 =
         ([st_spinner wait; st_subheader heading; st_info r], w2)).
Proof.
  intros Hq Hcall.
  pose proof (call_invocations llm q k w) as Hinv.
  pose proof (call_api_log llm q k w) as Hlog.
  rewrite Hcall in Hinv, Hlog. simpl in Hinv, Hlog.
  split_and!; [|done|done|by eapply call_raise_cache|].
  - eexists _, _, _. split; [by apply button_handler_raise|]. split.
    + apply contains_middle.
    + apply contains_append_l, contains_append_l, contains_end.
  - intros llm' q' k' r w2 Hq' Hret. eexists _, _.
    by apply button_handler_return.
Qed.

Lemma handler_reports_failure_witness :
  quantum ≠ "" ∧
  get_llm_response unavailable quantum journalist fresh_world =
    (Raise (LibraryError "APIConnectionError" "Connection error."),
     (get_llm_response unavailable quantum journalist fresh_world).2) ∧
  (∃ wait message heading,
     button_handler quoted unavailable quantum journalist fresh_world =
       ([st_spinner wait; st_error message; st_subheader heading;
         st_info "回答の取得に失敗しました。詳細なエラーは上記メッセージを確認してください。"],
        (get_llm_response unavailable quantum journalist fresh_world).2) ∧
     contains message "APIConnectionError" ∧
     contains message "Connection error.").
Proof.
  assert (Hq : quantum ≠ "") by discriminate.
  assert (Hcall : get_llm_response unavailable quantum journalist fresh_world =
    (Raise (LibraryError "APIConnectionError" "Connection error."),
     (get_llm_response unavailable quantum journalist fresh_world).2))
    by (vm_compute; reflexivity).
  split; [exact Hq|]. split; [exact Hcall|].
  exact (proj1 (handler_reports_failure quoted unavailable quantum journalist _ _ _
                  Hq Hcall)).
Defined.

(** ** Start of an execution *)

(** C8 (as amended): if constructing the client raises, the execution
    sets the page configuration, renders the page title and then an error
    box whose text ends with the exception's message, and stops there: no
    overview, no persona selector, no question field, no button and no
    answer are rendered, so no input is taken, and the world is left as it
    was. *)
Theorem client_failure_stops_script (repr : string → string) (e : Exn)
    (ws : Widgets) (w : World) :
  let '(out, w') := script repr (Raise e) ws w in
  (∃ page_title layout heading,
     out = [st_set_page_config page_title layout;
            st_title heading;
            st_error ("OpenAIモデルの初期化に失敗しました。APIキーを確認してください: "
                      +:+ exn_str repr e)]) ∧
  Forall (λ el, is_input el = false) out ∧
  Forall (λ el, is_answer el = false) out ∧
  w' = w.
Proof.
  simpl. split_and!; [by eexists _, _, _ | repeat constructor.. | done].
Qed.

(** C8 (as stated) fails: when constructing the client raises, the page
    title is rendered before the error box, so the execution does not stop
    before anything is rendered. *)
Lemma title_is_rendered_before_client_failure :
  let out := (script quoted
                (Raise (LibraryError "OpenAIError"
                          "The api_key client option must be set"))
                (submit "") fresh_world).1 in
  out !! 1%nat = Some (st_title "👨‍💼 専門家パーソナリティ選択型LLMアプリ") ∧
  (∃ message, out !! 2%nat = Some (st_error message)) ∧
  ¬ Forall (λ el, ∃ message, el = st_error message) out.
Proof.
  simpl. split_and!; [reflexivity | by eexists |].
  intros H. apply Forall_cons in H as [_ H]. apply Forall_cons in H as [[m Hm] _].
  discriminate.
Qed.

(** * Further properties of the response function and the page *)

(** ** Every change of the world is a call *)

(** Splits a goal about [get_llm_response llm q k w] into the four ways
    the call can go: stored answer, answer from the service, failure of
    the service, unknown persona. *)
Ltac by_call_cases llm q k w :=
  let Hc := fresh "Hc" in
  let Hp := fresh "Hp" in
  let Hk := fresh "Hk" in
  let Hi := fresh "Hi" in
  destruct (call_cases q k w) as [[? Hc]|[[Hc [? Hp]]|[Hc Hk]]];
  [ rewrite (call_hit llm _ _ _ _ Hc)
  | rewrite (call_miss llm _ _ _ _ Hc Hp);
    destruct (invoke llm (api_log w) _) eqn:Hi
  | rewrite (call_unknown llm _ _ _ Hc Hk) ];
  simpl.

Lemma step_is_call repr w w' :
  step repr w w' → w' = w ∨ ∃ llm q k, w' = (get_llm_response llm q k w).2.
Proof.
  intros [llm q k|client ws]; [right; eauto | apply script_world].
Qed.

Lemma page_step_step repr w w' : page_step repr w w' → step repr w w'.
Proof. intros [client ws]. apply step_script. Qed.

Lemma page_reachable_reachable repr w : page_reachable repr w → reachable repr w.
Proof.
  unfold page_reachable, reachable. revert w. apply rtc_ind_r; [done|].
  intros w1 w2 _ Hs IH. eapply rtc_r; [exact IH | by apply page_step_step].
Qed.

(** A property of the empty world that calls keep holds of every world the
    program can reach. *)
Lemma reachable_by_calls repr (P : World → Prop) :
  P fresh_world →
  (∀ llm q k w, P w → P (get_llm_response llm q k w).2) →
  ∀ w, reachable repr w → P w.
Proof.
  intros H0 Hcall. unfold reachable. apply rtc_ind_r; [done|].
  intros w1 w2 _ Hs IH.
  destruct (step_is_call _ _ _ Hs) as [->|(llm & q & k & ->)]; [done|].
  by apply Hcall.
Qed.

(** A relation between worlds that is reflexive, transitive and holds
    across every call holds across every sequence of steps. *)
Lemma steps_by_calls repr (R : World → World → Prop) :
  (∀ w, R w w) →
  (∀ w1 w2 w3, R w1 w2 → R w2 w3 → R w1 w3) →
  (∀ llm q k w, R w (get_llm_response llm q k w).2) →
  ∀ w w', rtc (step repr) w w' → R w w'.
Proof.
  intros Hrefl Htrans Hcall w w' H.
  induction H as [w|w1 w2 w3 Hs _ IH]; [done|].
  apply (Htrans _ w2); [|done].
  destruct (step_is_call _ _ _ Hs) as [->|(llm & q & k & ->)]; [done|].
  apply Hcall.
Qed.

Section CallInvariants.

Variable llm : ChatOpenAI.

Lemma call_return_cached q k v w w1 :
  get_llm_response llm q k w = (Return v, w1) → cache w1 !! (q, k) = Some v.
Proof.
  by_call_cases llm q k w; intros [= <- <-]; simpl; [done|].
  apply lookup_insert_eq.
Qed.

Lemma call_cache_grows q k w : cache w ⊆ cache (get_llm_response llm q k w).2.
Proof.
  by_call_cases llm q k w; [done | by apply insert_subseteq | done | done].
Qed.



End CallInvariants.

(** ** What the cache and the logs keep *)

(** X1: nothing is ever evicted or overwritten.  Whatever calls and
    executions follow, every stored answer stays stored, under the same key
    and with the same text. *)
Theorem cache_entries_are_permanent (repr : string → string) (w w' : World) :
  rtc (step repr) w w' → cache w ⊆ cache w'.
Proof.
  revert w w'. apply steps_by_calls.
  - done.
  - intros w1 w2 w3 H12 H23. by etrans.
  - intros llm q k w. apply call_cache_grows.
Qed.

Lemma cache_entries_are_permanent_witness :
  rtc (step quoted)
    (get_llm_response (canned "ok") quantum journalist fresh_world).2
    (script quoted (Return flaky) (submit_to 1 quantum)
       (get_llm_response (canned "ok") quantum journalist fresh_world).2).2 ∧
  cache (get_llm_response (canned "ok") quantum journalist fresh_world).2
    ⊆ cache (script quoted (Return flaky) (submit_to 1 quantum)
               (get_llm_response (canned "ok") quantum journalist fresh_world).2).2.
Proof.
  assert (H : rtc (step quoted)
    (get_llm_response (canned "ok") quantum journalist fresh_world).2
    (script quoted (Return flaky) (submit_to 1 quantum)
       (get_llm_response (canned "ok") quantum journalist fresh_world).2).2)
    by (apply rtc_once, step_script).
  split; [exact H|]. exact (cache_entries_are_permanent quoted _ _ H).
Defined.

(** X2: an answer, once returned, is the answer for good.  If a call for
    a question and persona returned a text, then after any further calls
    and executions a call for the same pair, through any client, returns
    that same text and sends nothing to the service. *)
Theorem answer_is_permanent (repr : string → string) (llm llm' : ChatOpenAI)
    (q k v : string) (w w1 w2 : World) :
  get_llm_response llm q k w = (Return v, w1) →
  rtc (step repr) w1 w2 →
  let '(r, w3) := get_llm_response llm' q k w2 in
  r = Return v ∧ api_log w3 = api_log w2 ∧ cache w3 = cache w2.
Proof.
  intros Hret Hsteps.
  apply call_return_cached in Hret.
  assert (Hc : cache w2 !! (q, k) = Some v).
  { eapply lookup_weaken; [exact Hret|].
    apply (steps_by_calls repr (λ a b, cache a ⊆ cache b)); [..|exact Hsteps].
    - done.
    - intros ? ? ? ? ?. by etrans.
    - intros. apply call_cache_grows. }
  by rewrite (call_hit llm' _ _ _ _ Hc).
Qed.

Lemma answer_is_permanent_witness :
  get_llm_response (canned "ok") quantum journalist fresh_world =
    (Return "ok", (get_llm_response (canned "ok") quantum journalist fresh_world).2) ∧
  rtc (step quoted)
    (get_llm_response (canned "ok") quantum journalist fresh_world).2
    (script quoted (Return flaky) (submit_to 1 quantum)
       (get_llm_response (canned "ok") quantum journalist fresh_world).2).2 ∧
  let '(r, w3) :=
    get_llm_response unavailable quantum journalist
      (script quoted (Return flaky) (submit_to 1 quantum)
         (get_llm_response (canned "ok") quantum journalist fresh_world).2).2 in
  r = Return "ok" ∧
  api_log w3 = api_log (script quoted (Return flaky) (submit_to 1 quantum)
      (get_llm_response (canned "ok") quantum journalist fresh_world).2).2 ∧
  cache w3 = cache (script quoted (Return flaky) (submit_to 1 quantum)
      (get_llm_response (canned "ok") quantum journalist fresh_world).2).2.
Proof.
  assert (H1 : get_llm_response (canned "ok") quantum journalist fresh_world =
    (Return "ok", (get_llm_response (canned "ok") quantum journalist fresh_world).2))
    by (vm_compute; reflexivity).
  assert (H2 : rtc (step quoted)
    (get_llm_response (canned "ok") quantum journalist fresh_world).2
    (script quoted (Return flaky) (submit_to 1 quantum)
       (get_llm_response (canned "ok") quantum journalist fresh_world).2).2)
    by (apply rtc_once, step_script).
  split; [exact H1|]. split; [exact H2|].
  exact (answer_is_permanent quoted (canned "ok") unavailable quantum journalist "ok"
           fresh_world _ _ H1 H2).
Defined.



(** X4: every stored answer was paid for by a request, and every request
    was caused by a call.  In every reachable world the cache holds at
    most as many answers as requests were sent, and at most as many
    requests were sent as calls of [get_llm_response] were made. *)
Theorem requests_are_accounted_for (repr : string → string) (w : World) :
  reachable repr w →
  (size (cache w) ≤ length (api_log w))%nat ∧
  (length (api_log w) ≤ length (invocations w))%nat.
Proof.
  revert w. apply reachable_by_calls.
  - simpl. rewrite map_size_empty. lia.
  - intros llm q k w [Hsize Hlog].
    by_call_cases llm q k w;
      rewrite ?length_app, ?map_size_insert_None by done; simpl; lia.
Qed.

Lemma requests_are_accounted_for_witness :
  reachable quoted (script quoted (Return flaky) (submit quantum) fresh_world).2 ∧
  (size (cache (script quoted (Return flaky) (submit quantum) fresh_world).2)
     ≤ length (api_log (script quoted (Return flaky) (submit quantum) fresh_world).2))%nat ∧
  (length (api_log (script quoted (Return flaky) (submit quantum) fresh_world).2)
     ≤ length (invocations
                 (script quoted (Return flaky) (submit quantum) fresh_world).2))%nat.
Proof.
  assert (H : reachable quoted
                (script quoted (Return flaky) (submit quantum) fresh_world).2)
    by (apply rtc_once, step_script).
  split; [exact H|]. exact (requests_are_accounted_for quoted _ H).
Defined.

(** X5: the service is never sent anything but a persona prompt and a
    question.  In every reachable world each request in the record is a
    list of exactly two messages: a system message holding the registry's
    text of some persona, then a user message. *)
Theorem requests_are_registry_prompts (repr : string → string) (w : World) :
  reachable repr w →
  Forall (λ messages, ∃ k p q, getitem EXPERT_PROFILES k = Return p ∧
                               messages = [SystemMessage p; HumanMessage q])
         (api_log w).
Proof.
  revert w. apply reachable_by_calls.
  - constructor.
  - intros llm q k w IH.
    by_call_cases llm q k w; try done;
      (apply Forall_app; split; [done|]; constructor; [|constructor]; eauto).
Qed.

Lemma requests_are_registry_prompts_witness :
  reachable quoted (script quoted (Return flaky) (submit quantum) fresh_world).2 ∧
  Forall (λ messages, ∃ k p q, getitem EXPERT_PROFILES k = Return p ∧
                               messages = [SystemMessage p; HumanMessage q])
         (api_log (script quoted (Return flaky) (submit quantum) fresh_world).2).
Proof.
  assert (H : reachable quoted
                (script quoted (Return flaky) (submit quantum) fresh_world).2)
    by (apply rtc_once, step_script).
  split; [exact H|]. exact (requests_are_registry_prompts quoted _ H).
Defined.

(** X6: nothing is stored that was not asked of the service.  In every
    reachable world, for each stored answer under a question and a persona
    key, the key is registered and the record of requests contains the
    prompt made of that persona's text and that question. *)
Theorem cached_answers_were_requested (repr : string → string) (w : World)
    (q k v : string) :
  reachable repr w →
  cache w !! (q, k) = Some v →
  ∃ p, getitem EXPERT_PROFILES k = Return p ∧
       [SystemMessage p; HumanMessage q] ∈ api_log w.
Proof.
  intros Hw. revert q k v. revert w Hw.
  apply (reachable_by_calls repr (λ w, ∀ q k v, cache w !! (q, k) = Some v →
           ∃ p, getitem EXPERT_PROFILES k = Return p ∧
                [SystemMessage p; HumanMessage q] ∈ api_log w)).
  - intros q k v H. simpl in H. by rewrite lookup_empty in H.
  - intros llm q k w IH q' k' v'.
    by_call_cases llm q k w; intros Hv.
    + eauto.
    + destruct (decide ((q, k) = (q', k'))) as [[= <- <-]|Hne].
      * eexists. split; [done|]. apply elem_of_app. right. by left.
      * rewrite lookup_insert_ne in Hv by done.
        destruct (IH _ _ _ Hv) as (p & ? & ?). exists p.
        split; [done|]. apply elem_of_app. by left.
    + destruct (IH _ _ _ Hv) as (p & ? & ?). exists p.
      split; [done|]. apply elem_of_app. by left.
    + eauto.
Qed.

Lemma cached_answers_were_requested_witness :
  reachable quoted (script quoted (Return (canned "ok")) (submit quantum) fresh_world).2 ∧
  cache (script quoted (Return (canned "ok")) (submit quantum) fresh_world).2
    !! (quantum, journalist) = Some "ok" ∧
  ∃ p, getitem EXPERT_PROFILES journalist = Return p ∧
       [SystemMessage p; HumanMessage quantum]
         ∈ api_log (script quoted (Return (canned "ok")) (submit quantum) fresh_world).2.
Proof.
  assert (H : reachable quoted
                (script quoted (Return (canned "ok")) (submit quantum) fresh_world).2)
    by (apply rtc_once, step_script).
  assert (Hc : cache (script quoted (Return (canned "ok")) (submit quantum) fresh_world).2
                 !! (quantum, journalist) = Some "ok")
    by (vm_compute; reflexivity).
  split; [exact H|]. split; [exact Hc|].
  exact (cached_answers_were_requested quoted _ quantum journalist "ok" H Hc).
Defined.

(** ** The registry *)

Lemma dict_get_elem_of d k p : dict_get d k = Some p → (k, p) ∈ d.
Proof.
  induction d as [|[k' v] d IH]; simpl; [done|].
  destruct (decide (k' = k)) as [->|_].
  - intros [= ->]. by left.
  - intros H. right. by apply IH.
Qed.

Lemma radio_value_registered (index : nat) :
  radio_value (keys EXPERT_PROFILES) index ∈ keys EXPERT_PROFILES.
Proof.
  destruct index as [|[|[|index]]]; unfold radio_value; simpl.
  - by left.
  - right. by left.
  - right. right. by left.
  - destruct index; by left.
Qed.

(** X7: every persona of the registry has a system message, and it is a
    description of the persona followed by the instruction to answer in
    Japanese. *)
Theorem every_persona_answers_in_japanese (k : string) :
  k ∈ keys EXPERT_PROFILES →
  ∃ p description,
    getitem EXPERT_PROFILES k = Return p ∧
    p = description +:+ answer_in_japanese ∧
    description ≠ "".
Proof.
  intros [p Hp]%dict_get_is_Some. exists p.
  assert (Hall : Forall (λ kv : string * string,
                   ∃ description, kv.2 = description +:+ answer_in_japanese ∧
                                  description ≠ "") EXPERT_PROFILES).
  { repeat constructor; simpl;
      match goal with
      | |- ∃ d, ?text = d +:+ _ ∧ _ =>
          exists (String.substring 0
                    (String.length text - String.length answer_in_japanese) text)
      end;
      (split; [vm_compute; reflexivity | vm_compute; discriminate]). }
  rewrite Forall_forall in Hall.
  destruct (Hall _ (dict_get_elem_of _ _ _ Hp)) as (description & Hd & Hne).
  exists description. split_and!; [by apply getitem_Return | done | done].
Qed.

Lemma every_persona_answers_in_japanese_witness :
  historian ∈ keys EXPERT_PROFILES ∧
  ∃ p description,
    getitem EXPERT_PROFILES historian = Return p ∧
    p = description +:+ answer_in_japanese ∧
    description ≠ "".
Proof.
  assert (H : historian ∈ keys EXPERT_PROFILES)
    by (apply dict_get_is_Some; vm_compute; eauto).
  split; [exact H|]. exact (every_persona_answers_in_japanese historian H).
Defined.

(** ** One execution of the script *)

Section Execution.

Variable repr : string → string.

(** The page of an execution whose client was constructed, up to and
    including the button. *)
Lemma script_not_clicked llm ws w :
  clicked ws = false →
  (script repr (Return llm) ws w).2 = w ∧
  Forall (λ el, is_error el = false ∧ is_warning el = false ∧ is_answer el = false)
         (script repr (Return llm) ws w).1.
Proof.
  intros Hc. unfold script. rewrite Hc. simpl. split; [done|]. repeat constructor.
Qed.

Lemma script_clicked llm ws w :
  clicked ws = true →
  ∃ page,
    Forall (λ el, is_error el = false ∧ is_warning el = false ∧ is_answer el = false)
           page ∧
    script repr (Return llm) ws w =
      (page ++ (button_handler repr llm (input_area ws)
                  (radio_value (keys EXPERT_PROFILES) (expert_radio ws)) w).1,
       (button_handler repr llm (input_area ws)
          (radio_value (keys EXPERT_PROFILES) (expert_radio ws)) w).2).
Proof.
  intros Hc. unfold script. rewrite Hc.
  destruct (button_handler _ _ _ _ _) as [out w']. eexists. split; [|reflexivity].
  repeat constructor.
Qed.

(** Which call an execution makes. *)
Lemma script_invocations client ws w :
  invocations (script repr client ws w).2 =
    invocations w ++
    match client with
    | Return _ =>
        if clicked ws && truthy (input_area ws)
        then [(input_area ws, radio_value (keys EXPERT_PROFILES) (expert_radio ws))]
        else []
    | Raise _ => []
    end.
Proof.
  destruct client as [llm|e]; [|simpl; by rewrite app_nil_r].
  destruct (clicked ws) eqn:Hc.
  - destruct (script_clicked llm ws w Hc) as (page & _ & ->). simpl.
    rewrite button_handler_world.
    destruct (truthy (input_area ws)); [apply call_invocations | by rewrite app_nil_r].
  - rewrite (proj1 (script_not_clicked llm ws w Hc)). simpl. by rewrite app_nil_r.
Qed.

End Execution.

(** X8: once the client is constructed, an error box can only report a
    failure of the service.  If an execution renders an error box, then the
    button was clicked with a question for which nothing was stored, the
    prompt of the chosen persona and that question was sent, the service
    raised, and the box shows that exception's type name and message; the
    registry lookup never fails for a persona chosen with the radio. *)
Theorem page_errors_come_from_the_service (repr : string → string)
    (llm : ChatOpenAI) (ws : Widgets) (w : World) (message : string) :
  st_error message ∈ (script repr (Return llm) ws w).1 →
  let q := input_area ws in
  let k := radio_value (keys EXPERT_PROFILES) (expert_radio ws) in
  clicked ws = true ∧ q ≠ "" ∧ cache w !! (q, k) = None ∧
  ∃ p e,
    getitem EXPERT_PROFILES k = Return p ∧
    invoke llm (api_log w) [SystemMessage p; HumanMessage q] = Raise e ∧
    message = "LLMの実行中にエラーが発生しました: "
              +:+ exn_type_name e +:+ " - " +:+ exn_str repr e.
Proof.
  intros Hin q k.
  assert (Hclean : ∀ l : list Element,
            Forall (λ el, is_error el = false ∧ is_warning el = false
                          ∧ is_answer el = false) l →
            st_error message ∈ l → False).
  { intros l Hl Hel. rewrite Forall_forall in Hl.
    by destruct (Hl _ Hel) as [? _]. }
  destruct (clicked ws) eqn:Hc;
    [|exfalso; eapply Hclean; [apply (script_not_clicked repr llm ws w Hc)|done]].
  destruct (script_clicked repr llm ws w Hc) as (page & Hpage & Hs).
  rewrite Hs in Hin. cbn [fst] in Hin. fold q k in Hin.
  apply elem_of_app in Hin as [Hin|Hin]; [exfalso; by eapply Hclean|].
  destruct (decide (q = "")) as [Hq|Hq].
  { unfold button_handler in Hin. rewrite Hq in Hin. simpl in Hin.
    apply list_elem_of_singleton in Hin. discriminate. }
  split_and!; [done | done | |].
  - destruct (cache w !! (q, k)) as [v|] eqn:Hcache; [exfalso|done].
    rewrite (button_handler_return repr llm q k v w _ Hq (call_hit llm q k v w Hcache))
      in Hin.
    simpl in Hin. repeat (apply elem_of_cons in Hin as [Hin|Hin]; [discriminate|]).
    by apply elem_of_nil in Hin.
  - destruct (get_llm_response llm q k w) as [[r|e] w1] eqn:Hcall.
    { exfalso. rewrite (button_handler_return repr llm q k r w w1 Hq Hcall) in Hin.
      simpl in Hin. repeat (apply elem_of_cons in Hin as [Hin|Hin]; [discriminate|]).
      by apply elem_of_nil in Hin. }
    rewrite (button_handler_raise repr llm q k e w w1 Hq Hcall) in Hin. simpl in Hin.
    apply elem_of_cons in Hin as [Hin|Hin]; [discriminate|].
    apply elem_of_cons in Hin as [Hin|Hin];
      [|repeat (apply elem_of_cons in Hin as [Hin|Hin]; [discriminate|]);
        by apply elem_of_nil in Hin].
    injection Hin as ->.
    destruct (call_cases q k w) as [[v Hv]|[[Hmiss [p Hp]]|[_ Hk]]].
    + rewrite (call_hit llm _ _ _ _ Hv) in Hcall. discriminate.
    + exists p, e. rewrite (call_miss llm _ _ _ _ Hmiss Hp) in Hcall.
      unfold prompt in Hcall.
      destruct (invoke llm (api_log w) _) eqn:Hi; [discriminate|].
      injection Hcall as -> _. done.
    + exfalso. apply Hk, radio_value_registered.
Qed.

Lemma page_errors_come_from_the_service_witness :
  st_error ("LLMの実行中にエラーが発生しました: "
            +:+ "APIConnectionError" +:+ " - " +:+ "Connection error.")
    ∈ (script quoted (Return unavailable) (submit quantum) fresh_world).1 ∧
  clicked (submit quantum) = true ∧ quantum ≠ "" ∧
  cache fresh_world !! (quantum, journalist) = None ∧
  ∃ p e,
    getitem EXPERT_PROFILES journalist = Return p ∧
    invoke unavailable (api_log fresh_world)
      [SystemMessage p; HumanMessage quantum] = Raise e ∧
    "LLMの実行中にエラーが発生しました: "
      +:+ "APIConnectionError" +:+ " - " +:+ "Connection error."
    = "LLMの実行中にエラーが発生しました: "
      +:+ exn_type_name e +:+ " - " +:+ exn_str quoted e.
Proof.
  assert (H : st_error ("LLMの実行中にエラーが発生しました: "
                        +:+ "APIConnectionError" +:+ " - " +:+ "Connection error.")
                ∈ (script quoted (Return unavailable) (submit quantum) fresh_world).1).
  { vm_compute. do 9 right. left. }
  split; [exact H|].
  exact (page_errors_come_from_the_service quoted unavailable (submit quantum)
           fresh_world _ H).
Defined.

(** X9: a question answered by the service is shown as answered.  When
    the button is clicked with a non-empty question for which nothing is
    stored, and the service answers the prompt of the chosen persona and
    that question with a text, then that text, unchanged, is the last
    thing on the page, the page has no error box and no warning, and the
    text is stored under the question and the persona. *)
Theorem submitted_question_is_answered (repr : string → string) (llm : ChatOpenAI)
    (ws : Widgets) (w : World) (p text : string) :
  let q := input_area ws in
  let k := radio_value (keys EXPERT_PROFILES) (expert_radio ws) in
  clicked ws = true →
  q ≠ "" →
  cache w !! (q, k) = None →
  getitem EXPERT_PROFILES k = Return p →
  invoke llm (api_log w) [SystemMessage p; HumanMessage q] = Return text →
  let '(out, w') := script repr (Return llm) ws w in
  last out = Some (st_info text) ∧
  Forall (λ el, is_error el = false ∧ is_warning el = false) out ∧
  api_log w' = api_log w ++ [[SystemMessage p; HumanMessage q]] ∧
  cache w' = <[(q, k) := text]> (cache w).
Proof.
  intros q k Hc Hq Hmiss Hp Hi.
  destruct (script_clicked repr llm ws w Hc) as (page & Hpage & ->). fold q k.
  pose proof (call_miss llm q k p w Hmiss Hp) as Hcall.
  unfold prompt in Hcall. rewrite Hi in Hcall.
  rewrite (button_handler_return repr llm q k text w _ Hq Hcall). simpl.
  split_and!; [|  |done|done].
  - rewrite last_app. done.
  - apply Forall_app. split; [|repeat constructor].
    eapply Forall_impl; [exact Hpage|]. simpl. tauto.
Qed.

Lemma submitted_question_is_answered_witness :
  ∃ p,
  clicked (submit quantum) = true ∧
  quantum ≠ "" ∧
  cache fresh_world !! (quantum, journalist) = None ∧
  getitem EXPERT_PROFILES journalist = Return p ∧
  invoke (canned "ok") (api_log fresh_world)
    [SystemMessage p; HumanMessage quantum] = Return "ok" ∧
  let '(out, w') := script quoted (Return (canned "ok")) (submit quantum) fresh_world in
  last out = Some (st_info "ok") ∧
  Forall (λ el, is_error el = false ∧ is_warning el = false) out ∧
  api_log w' = api_log fresh_world ++ [[SystemMessage p; HumanMessage quantum]] ∧
  cache w' = <[(quantum, journalist) := "ok"]> (cache fresh_world).
Proof.
  eexists. split; [reflexivity|]. split; [discriminate|]. split; [reflexivity|].
  split; [vm_compute; reflexivity|]. split; [reflexivity|].
  apply (submitted_question_is_answered quoted (canned "ok") (submit quantum)
           fresh_world _ "ok");
    [reflexivity | discriminate | reflexivity | vm_compute; reflexivity | reflexivity].
Defined.

(** X10: asking again shows the same page at no cost.  If a click with a
    non-empty question produced a page without an error box, then the
    same click in the resulting world, with whatever client the next
    execution constructs, produces exactly the same page, sends nothing to
    the service and leaves the cache as it is. *)
Theorem resubmission_shows_the_same_page (repr : string → string)
    (llm llm' : ChatOpenAI) (ws : Widgets) (w : World) :
  clicked ws = true →
  input_area ws ≠ "" →
  Forall (λ el, is_error el = false) (script repr (Return llm) ws w).1 →
  let '(out1, w1) := script repr (Return llm) ws w in
  let '(out2, w2) := script repr (Return llm') ws w1 in
  out2 = out1 ∧ api_log w2 = api_log w1 ∧ cache w2 = cache w1.
Proof.
  intros Hc Hq Hok.
  set (q := input_area ws) in *.
  set (k := radio_value (keys EXPERT_PROFILES) (expert_radio ws)).
  destruct (get_llm_response llm q k w) as [[r|e] w1] eqn:Hcall.
  - pose proof (call_return_cached llm q k r w w1 Hcall) as Hstored.
    unfold script in *. rewrite Hc in *. fold q k in Hok |- *.
    rewrite (button_handler_return repr llm q k r w w1 Hq Hcall).
    rewrite (button_handler_return repr llm' q k r w1 _ Hq
               (call_hit llm' q k r w1 Hstored)).
    done.
  - exfalso. unfold script in Hok. rewrite Hc in Hok. fold q k in Hok.
    rewrite (button_handler_raise repr llm q k e w w1 Hq Hcall) in Hok.
    cbn [fst] in Hok. apply Forall_app in Hok as [_ Hok].
    apply Forall_cons in Hok as [_ Hok]. apply Forall_cons in Hok as [Hok _].
    discriminate.
Qed.

Lemma resubmission_shows_the_same_page_witness :
  clicked (submit quantum) = true ∧
  input_area (submit quantum) ≠ "" ∧
  Forall (λ el, is_error el = false)
    (script quoted (Return (canned "ok")) (submit quantum) fresh_world).1 ∧
  let '(out1, w1) := script quoted (Return (canned "ok")) (submit quantum) fresh_world in
  let '(out2, w2) := script quoted (Return unavailable) (submit quantum) w1 in
  out2 = out1 ∧ api_log w2 = api_log w1 ∧ cache w2 = cache w1.
Proof.
  assert (Hq : input_area (submit quantum) ≠ "") by discriminate.
  assert (Hok : Forall (λ el, is_error el = false)
    (script quoted (Return (canned "ok")) (submit quantum) fresh_world).1)
    by (vm_compute; repeat constructor).
  split; [reflexivity|]. split; [exact Hq|]. split; [exact Hok|].
  exact (resubmission_shows_the_same_page quoted (canned "ok") unavailable
           (submit quantum) fresh_world eq_refl Hq Hok).
Defined.

(** X11: the page never passes on an empty question or a persona that is
    not in the registry.  In every world produced by executions of the
    script alone, each recorded call of [get_llm_response] has a non-empty
    question and a registered persona key. *)
Theorem page_calls_are_valid (repr : string → string) (w : World) :
  page_reachable repr w →
  Forall (λ call : string * string, call.1 ≠ "" ∧ call.2 ∈ keys EXPERT_PROFILES)
         (invocations w).
Proof.
  unfold page_reachable. revert w. apply rtc_ind_r; [constructor|].
  intros w1 w2 _ [client ws] IH.
  rewrite script_invocations. apply Forall_app. split; [done|].
  destruct client as [llm|e]; [|constructor].
  destruct (clicked ws); simpl; [|constructor].
  destruct (truthy (input_area ws)) eqn:Hq; constructor; [|constructor].
  split; [by apply truthy_nonempty | apply radio_value_registered].
Qed.

Lemma page_calls_are_valid_witness :
  page_reachable quoted
    (script quoted (Return flaky) (submit_to 7 " ") fresh_world).2 ∧
  Forall (λ call : string * string, call.1 ≠ "" ∧ call.2 ∈ keys EXPERT_PROFILES)
         (invocations (script quoted (Return flaky) (submit_to 7 " ") fresh_world).2).
Proof.
  assert (H : page_reachable quoted
                (script quoted (Return flaky) (submit_to 7 " ") fresh_world).2)
    by (apply rtc_once, page_step_script).
  split; [exact H|]. exact (page_calls_are_valid quoted _ H).
Defined.

(** X12: an execution calls [get_llm_response] exactly when the client
    was constructed, the button was clicked and the question is not empty,
    and then once, with the question and the chosen persona; in every
    other execution the world is left untouched.  No execution sends more
    than one request. *)
Theorem execution_calls_at_most_once (repr : string → string)
    (client : Outcome ChatOpenAI) (ws : Widgets) (w : World) :
  let q := input_area ws in
  let k := radio_value (keys EXPERT_PROFILES) (expert_radio ws) in
  let w' := (script repr client ws w).2 in
  (((∃ llm, client = Return llm) ∧ clicked ws = true ∧ q ≠ "") →
     invocations w' = invocations w ++ [(q, k)]) ∧
  (¬ ((∃ llm, client = Return llm) ∧ clicked ws = true ∧ q ≠ "") → w' = w) ∧
  (length (api_log w') ≤ length (api_log w) + 1)%nat.
Proof.
  intros q k w'. subst w'. split_and!.
  - intros ([llm ->] & Hc & Hq%truthy_nonempty).
    rewrite script_invocations. fold q k. by rewrite Hc, Hq.
  - intros Hno. destruct client as [llm|e]; [|done].
    destruct (clicked ws) eqn:Hc;
      [|apply (script_not_clicked repr llm ws w Hc)].
    destruct (script_clicked repr llm ws w Hc) as (page & _ & ->).
    cbn [snd]. rewrite button_handler_world. fold q.
    destruct (truthy q) eqn:Hq; [|done].
    exfalso. apply Hno. split_and!; [by exists llm | done | by apply truthy_nonempty].
  - destruct (script_world repr client ws w) as [->|(llm & q' & k' & ->)]; [lia|].
    apply call_api_log.
Qed.

Lemma execution_calls_at_most_once_witness :
  invocations (script quoted (Return flaky) (submit quantum) fresh_world).2 =
    invocations fresh_world ++ [(quantum, journalist)].
Proof.
  apply (execution_calls_at_most_once quoted (Return flaky) (submit quantum) fresh_world).
  split; [exists flaky; reflexivity|]. split; [reflexivity | discriminate].
Defined.

(** X13: a call touches one cache entry at most, its own, and only to
    add it.  After a call for a question and a persona key the cache is
    either unchanged or the old cache with the returned text added under
    that pair, where nothing was stored before; a returned text is always
    found under the pair afterwards; and the entry of every other pair,
    whether it differs in the question or in the persona, is as before. *)
Theorem call_changes_only_its_own_entry (llm : ChatOpenAI) (q k : string) (w : World) :
  let '(r, w') := get_llm_response llm q k w in
  (cache w' = cache w ∨
   ∃ v, r = Return v ∧ cache w !! (q, k) = None ∧
        cache w' = <[(q, k) := v]> (cache w)) ∧
  (∀ v, r = Return v → cache w' !! (q, k) = Some v) ∧
  (∀ q' k', (q', k') ≠ (q, k) → cache w' !! (q', k') = cache w !! (q', k')).
Proof.
  by_call_cases llm q k w.
  - split_and!; [by left | by intros ? [= <-] | done].
  - split_and!; [right; eauto | |].
    + intros ? [= <-]. apply lookup_insert_eq.
    + intros q' k' Hne. by rewrite lookup_insert_ne.
  - split_and!; [by left | done | done].
  - split_and!; [by left | done | done].
Qed.
